(** * chi-sentry: the Sentry middleware for the chi router (chi/chi.go)

    The package wraps an [http.Handler]: it resolves a request-scoped hub,
    starts a transaction, defers the transaction's [Finish] and the panic
    recovery, calls the wrapped handler and renames the transaction after the
    matched route pattern.

    The Sentry SDK and the chi router are external collaborators.  They are
    an interface here ([Collaborators]): every result below holds for every
    implementation of it.  The calls the wrapper issues to them are recorded,
    in order, in a ghost trace. *)

From Stdlib Require Import List ZArith String Bool Arith Lia.
Import ListNotations.
Local Open Scope string_scope.
Local Open Scope list_scope.

(** ** Go runtime values *)

(** A value carried by a panic in flight.  The runtime never carries the nil
    interface: [panic(nil)] is turned into a [*runtime.PanicNilError]. *)
Inductive PanicValue : Type :=
| PString (s : string)
| PError (msg : string)
| PRuntimeError (msg : string).

(** What a nil pointer dereference raises. *)
Definition nil_dereference : PanicValue :=
  PRuntimeError "invalid memory address or nil pointer dereference".

(** The result of a call: it returns, or it unwinds with a panic. *)
Inductive Outcome (A : Type) : Type :=
| Returned (a : A)
| Panicked (v : PanicValue).
Arguments Returned {A} a.
Arguments Panicked {A} v.

Definition panic_of {A} (o : Outcome A) : option PanicValue :=
  match o with
  | Returned _ => None
  | Panicked v => Some v
  end.

Definition outcome_of (p : option PanicValue) : Outcome unit :=
  match p with
  | None => Returned tt
  | Some v => Panicked v
  end.

(** [recover()]: the value of the panic in flight (nil when there is none),
    and the panicking state afterwards, which is always: not panicking. *)
Definition recover (p : option PanicValue) : option PanicValue * option PanicValue :=
  (p, None).

(** ** Data of net/http, sentry-go and chi that the wrapper handles *)

Definition Hub := nat.            (* *sentry.Hub, by address *)
Definition RouteCtx := nat.       (* *chi.Context, by address *)
Definition EventID := string.     (* sentry.EventID *)
Definition ResponseWriter := nat. (* http.ResponseWriter, opaque to the wrapper *)
Definition Duration := Z.         (* time.Duration: int64 nanoseconds *)

Definition Second : Duration := 1000000000%Z.
Definition half_second : Duration := 500000000%Z.

(** A [context.Context], by the values the wrapper and its collaborators look
    up in it: the hub, chi's routing context and the span. *)
Record Ctx : Type := mkCtx {
  ctx_hub : option Hub;
  ctx_route : option RouteCtx;
  ctx_span : option nat
}.

(** A [*sentry.Span]; its context is fixed when it is created. *)
Record Span : Type := mkSpan {
  span_id : nat;
  span_ctx : Ctx
}.

Record Request : Type := mkRequest {
  req_method : string;
  url_path : string;                      (* r.URL.Path *)
  req_header : list (string * string);
  req_ctx : Ctx                           (* r.Context() *)
}.

Inductive TransactionSource : Type :=
| SourceCustom | SourceURL | SourceRoute.

Inductive SpanOption : Type :=
| OpName (name : string)
| ContinueFromRequest (r : Request)
| TransctionSource (source : TransactionSource).

(** [sentry.GetHubFromContext], [sentry.SetHubOnContext], [chi.RouteContext]
    and [r.WithContext]: lookups and copies, without effect. *)
Definition GetHubFromContext (ctx : Ctx) : option Hub := ctx_hub ctx.

Definition SetHubOnContext (ctx : Ctx) (hub : Hub) : Ctx :=
  {| ctx_hub := Some hub; ctx_route := ctx_route ctx; ctx_span := ctx_span ctx |}.

Definition RouteContext (ctx : Ctx) : option RouteCtx := ctx_route ctx.

Definition WithContext (r : Request) (ctx : Ctx) : Request :=
  {| req_method := req_method r; url_path := url_path r;
     req_header := req_header r; req_ctx := ctx |}.

(** ** The external collaborators

    [State] is everything they own: hubs and their scopes, transactions,
    queued events, the routing contexts the router fills in while it routes,
    and the clock.  Their operations return; the two calls of the wrapper
    that can reach a nil pointer are written out: [Scope] on a nil hub, a nil
    dereference, and [RoutePattern] on a nil routing context, where
    [RoutePattern_nil] is what the router does, which depends on its
    version. *)
Record Collaborators : Type := {
  State : Type;
  CurrentHub : State -> Hub;
  Clone : Hub -> State -> State * Hub;
  StartTransaction : Ctx -> string -> list SpanOption -> State -> State * Span;
  Finish : Span -> State -> State;
  SetRequest : Hub -> Request -> State -> State;
  SetTransaction : Hub -> string -> State -> State;
  RecoverWithContext :
    Hub -> Ctx -> Request -> PanicValue -> State -> State * option EventID;
  Flush : Hub -> Duration -> State -> State * bool;
  clock : State -> Z;
  RoutePattern : RouteCtx -> State -> string;
  RoutePattern_nil : Outcome string
}.

(** ** Handler and Options (chi.go:44-89) *)

Record Handler : Type := mkHandler {
  repanic : bool;
  waitForDelivery : bool;
  timeout : Duration
}.

Record Options : Type := mkOptions {
  Repanic : bool;
  WaitForDelivery : bool;
  Timeout : Duration
}.

Definition New (options : Options) : Handler :=
  let timeout := Timeout options in
  let timeout := if (timeout =? 0)%Z then (2 * Second)%Z else timeout in
  {| repanic := Repanic options;
     timeout := timeout;
     waitForDelivery := WaitForDelivery options |}.

(** ** The ghost trace of calls to the collaborators *)

Inductive Call : Type :=
| CClone (source clone : Hub)
| CStartTransaction (ctx : Ctx) (name : string) (opts : list SpanOption) (tx : Span)
| CFinish (tx : Span)
| CSetRequest (hub : Hub) (r : Request)
| CServeHTTP (w : ResponseWriter) (r : Request) (o : Outcome unit)
| CRoutePattern (rctx : option RouteCtx) (o : Outcome string)
| CSetTransaction (hub : Hub) (name : string)
| CRecoverWithContext (hub : Hub) (ctx : Ctx) (attached : Request)
                      (err : PanicValue) (eventID : option EventID)
| CFlush (hub : Hub) (timeout : Duration) (waited : Z).

(** A deferred call: the function and its arguments, evaluated when the
    [defer] statement runs. *)
Inductive DeferredCall : Type :=
| DFinish (transaction : Span)
| DRecoverWithSentry (hub : Hub) (r : Request).

Section Middleware.

Variable E : Collaborators.

(** [http.HandlerFunc] and the [http.Handler] interface. *)
Definition HandlerFunc : Type :=
  ResponseWriter -> Request -> State E -> State E * Outcome unit.

Record HttpHandler : Type := {
  ServeHTTP : ResponseWriter -> Request -> State E -> State E * Outcome unit
}.

(** [func (f HandlerFunc) ServeHTTP(w, r) { f(w, r) }] *)
Definition HandlerFunc_Handler (f : HandlerFunc) : HttpHandler :=
  {| ServeHTTP := fun w r => f w r |}.

Record World : Type := mkWorld {
  ext : State E;
  trace : list Call
}.

Definition emit (c : Call) (s : State E) (wd : World) : World :=
  {| ext := s; trace := trace wd ++ [c] |}.

(** *** Instrumented calls *)

Definition call_Clone (source : Hub) (wd : World) : World * Hub :=
  let '(s, clone) := Clone E source (ext wd) in
  (emit (CClone source clone) s wd, clone).

Definition call_StartTransaction (ctx : Ctx) (name : string)
    (opts : list SpanOption) (wd : World) : World * Span :=
  let '(s, tx) := StartTransaction E ctx name opts (ext wd) in
  (emit (CStartTransaction ctx name opts tx) s wd, tx).

Definition call_Finish (tx : Span) (wd : World) : World :=
  emit (CFinish tx) (Finish E tx (ext wd)) wd.

Definition call_SetRequest (hub : Hub) (r : Request) (wd : World) : World :=
  emit (CSetRequest hub r) (SetRequest E hub r (ext wd)) wd.

Definition call_SetTransaction (hub : Hub) (name : string) (wd : World) : World :=
  emit (CSetTransaction hub name) (SetTransaction E hub name (ext wd)) wd.

Definition call_ServeHTTP (handler : HttpHandler) (w : ResponseWriter)
    (r : Request) (wd : World) : World * Outcome unit :=
  let '(s, o) := ServeHTTP handler w r (ext wd) in
  (emit (CServeHTTP w r o) s wd, o).

(** [rctx.RoutePattern()], [rctx] possibly nil. *)
Definition call_RoutePattern (rctx : option RouteCtx) (wd : World)
    : World * Outcome string :=
  let o := match rctx with
           | Some x => Returned (RoutePattern E x (ext wd))
           | None => RoutePattern_nil E
           end in
  (emit (CRoutePattern rctx o) (ext wd) wd, o).

Definition call_RecoverWithContext (hub : Hub) (ctx : Ctx) (attached : Request)
    (err : PanicValue) (wd : World) : World * option EventID :=
  let '(s, eventID) := RecoverWithContext E hub ctx attached err (ext wd) in
  (emit (CRecoverWithContext hub ctx attached err eventID) s wd, eventID).

Definition call_Flush (hub : Hub) (t : Duration) (wd : World) : World :=
  let '(s, _) := Flush E hub t (ext wd) in
  emit (CFlush hub t (clock E s - clock E (ext wd))%Z) s wd.

(** *** recoverWithSentry (chi.go:146-159)

    [p] is the panicking state when the deferred call starts; the result
    carries the panicking state when it ends.  The context handed to
    [RecoverWithContext] is [r.Context()] with [r] stored under
    [sentry.RequestContextKey]: the pair of the two. *)
Definition recoverWithSentry (h : Handler) (hub : Hub) (r : Request)
    (p : option PanicValue) (wd : World) : World * option PanicValue :=
  match recover p with
  | (Some err, p') =>
      let '(wd1, eventID) :=
        call_RecoverWithContext hub (req_ctx r) r err wd in
      let wd2 :=
        if match eventID with Some _ => true | None => false end
           && waitForDelivery h
        then call_Flush hub (timeout h) wd1
        else wd1 in
      if repanic h then (wd2, Some err) else (wd2, p')
  | (None, p') => (wd, p')
  end.

(** *** Deferred calls *)

Definition run_deferred (h : Handler) (d : DeferredCall)
    (p : option PanicValue) (wd : World) : World * option PanicValue :=
  match d with
  | DFinish transaction => (call_Finish transaction wd, p)
  | DRecoverWithSentry hub r => recoverWithSentry h hub r p wd
  end.

(** The deferred calls of a frame run last registered first; each sees the
    panicking state the previous one left. *)
Fixpoint run_defers (h : Handler) (ds : list DeferredCall)
    (p : option PanicValue) (wd : World) : World * option PanicValue :=
  match ds with
  | [] => (wd, p)
  | d :: ds' =>
      let '(wd', p') := run_deferred h d p wd in
      run_defers h ds' p' wd'
  end.

(** *** handle (chi.go:109-144)

    [handle_prologue] is the closure's body down to the second [defer]
    (chi.go:111-135): it yields the request's hub, the transaction, the
    request handed to the wrapped handler and the stack of deferred calls
    registered so far (top first). *)
Definition handle_prologue (r : Request) (wd : World)
    : World * Hub * Span * Request * list DeferredCall :=
  let ctx := req_ctx r in
  let '(wd, hub, ctx) :=
    match GetHubFromContext ctx with
    | Some hub => (wd, hub, ctx)
    | None =>
        let '(wd, hub) := call_Clone (CurrentHub E (ext wd)) wd in
        (wd, hub, SetHubOnContext ctx hub)
    end in
  let options :=
    [OpName "http.server"; ContinueFromRequest r; TransctionSource SourceURL] in
  let '(wd, transaction) := call_StartTransaction ctx (url_path r) options wd in
  let defers := [DFinish transaction] in
  let r := WithContext r (span_ctx transaction) in
  let wd := call_SetRequest hub r wd in
  let defers := DRecoverWithSentry hub r :: defers in
  (wd, hub, transaction, r, defers).

(** The body of the closure up to the point where it returns or panics
    (chi.go:111-142).  In the last statement the receiver
    [GetHubFromContext(...).Scope()] is evaluated before the argument
    [rctx.RoutePattern()]; [Scope] on a nil hub is a nil dereference. *)
Definition handle_body (handler : HttpHandler)
    (w : ResponseWriter) (r : Request) (wd : World)
    : World * list DeferredCall * Outcome unit :=
  let '(wd, hub, transaction, r, defers) := handle_prologue r wd in
  match call_ServeHTTP handler w r wd with
  | (wd, Panicked v) => (wd, defers, Panicked v)
  | (wd, Returned _) =>
      let rctx := RouteContext (req_ctx r) in
      match GetHubFromContext (span_ctx transaction) with
      | None => (wd, defers, Panicked nil_dereference)
      | Some hub' =>
          match call_RoutePattern rctx wd with
          | (wd, Panicked v) => (wd, defers, Panicked v)
          | (wd, Returned pattern) =>
              (call_SetTransaction hub' pattern wd, defers, Returned tt)
          end
      end
  end.

(** A call of the closure: the body, then the deferred calls. *)
Definition handle_traced (h : Handler) (handler : HttpHandler)
    (w : ResponseWriter) (r : Request) (wd : World) : World * Outcome unit :=
  let '(wd1, defers, o) := handle_body handler w r wd in
  let '(wd2, p) := run_defers h defers (panic_of o) wd1 in
  (wd2, outcome_of p).

(** The closure as a handler function: the trace is ghost state. *)
Definition handle (h : Handler) (handler : HttpHandler) : HandlerFunc :=
  fun w r s =>
    let '(wd, o) := handle_traced h handler w r {| ext := s; trace := [] |} in
    (ext wd, o).

(** [Handle] and [HandleFunc] (chi.go:94-107).  [Handle] returns the closure
    as an [http.Handler]; [HandleFunc] receives a handler function, which is
    passed to [handle] as the [http.Handler] it implements. *)
Definition Handle (h : Handler) (handler : HttpHandler) : HttpHandler :=
  HandlerFunc_Handler (handle h handler).

Definition HandleFunc (h : Handler) (handler : HandlerFunc) : HandlerFunc :=
  handle h (HandlerFunc_Handler handler).

(** The calls of one request. *)
Definition calls (h : Handler) (handler : HttpHandler)
    (w : ResponseWriter) (r : Request) (s : State E) : list Call :=
  trace (fst (handle_traced h handler w r {| ext := s; trace := [] |})).

Definition result (h : Handler) (handler : HttpHandler)
    (w : ResponseWriter) (r : Request) (s : State E) : Outcome unit :=
  snd (handle_traced h handler w r {| ext := s; trace := [] |}).

End Middleware.

Arguments handle_prologue E r wd : assert.
Arguments handle_body E handler w r wd : assert.
Arguments handle_traced E h handler w r wd : assert.
Arguments calls E h handler w r s : assert.
Arguments result E h handler w r s : assert.

(** ** Reading a trace *)

Definition is_Clone (c : Call) : bool :=
  match c with CClone _ _ => true | _ => false end.

Definition is_StartTransaction (c : Call) : bool :=
  match c with CStartTransaction _ _ _ _ => true | _ => false end.

Definition is_Finish (c : Call) : bool :=
  match c with CFinish _ => true | _ => false end.

Definition is_SetTransaction (c : Call) : bool :=
  match c with CSetTransaction _ _ => true | _ => false end.

Definition is_Recover (c : Call) : bool :=
  match c with CRecoverWithContext _ _ _ _ _ => true | _ => false end.

Definition is_Flush (c : Call) : bool :=
  match c with CFlush _ _ _ => true | _ => false end.

(** The hub a call writes to: its scope ([SetRequest], [SetTransaction]) or
    its client's queue ([RecoverWithContext], [Flush]).  [Clone] reads its
    source and writes to no existing hub. *)
Definition written_hub (c : Call) : option Hub :=
  match c with
  | CSetRequest hub _ => Some hub
  | CSetTransaction hub _ => Some hub
  | CRecoverWithContext hub _ _ _ _ => Some hub
  | CFlush hub _ _ => Some hub
  | _ => None
  end.

(** The time the calls of a trace spent waiting for delivery. *)
Fixpoint time_waited (l : list Call) : Z :=
  match l with
  | [] => 0
  | CFlush _ _ waited :: l' => waited + time_waited l'
  | _ :: l' => time_waited l'
  end.

Definition is_panicked {A} (o : Outcome A) : bool :=
  match o with Panicked _ => true | Returned _ => false end.

Definition is_ServeHTTP (c : Call) : bool :=
  match c with CServeHTTP _ _ _ => true | _ => false end.

Definition is_SetRequest (c : Call) : bool :=
  match c with CSetRequest _ _ => true | _ => false end.

Definition is_RoutePattern (c : Call) : bool :=
  match c with CRoutePattern _ _ => true | _ => false end.

(** The options every transaction is started with (chi.go:117-121), for the
    inbound request [r]. *)
Definition span_options (r : Request) : list SpanOption :=
  [OpName "http.server"; ContinueFromRequest r; TransctionSource SourceURL].

(** What the documentation of [Options.Timeout] (chi.go:69-74) says of the
    wait: it takes no longer than the timeout. *)
Definition Flush_bounded (E : Collaborators) : Prop :=
  forall hub t s,
    (0 <= clock E (fst (Flush E hub t s)) - clock E s <= Z.max 0 t)%Z.

(** A Sentry whose transactions keep, in their context, the hub of the
    context they were started from. *)
Definition StartTransaction_keeps_hub (E : Collaborators) : Prop :=
  forall ctx name opts s,
    ctx_hub (span_ctx (snd (StartTransaction E ctx name opts s))) = ctx_hub ctx.

(** ** A reference implementation of the collaborators

    A small Sentry and router, to run the wrapper on concrete requests: hub 0
    is the process-wide hub, clones and spans are numbered as they are made,
    a scope is the last transaction name set on a hub, delivery of a queued
    event takes [delivery] nanoseconds, and [RoutePattern] dereferences its
    receiver. *)
Module Ref.

Record St : Type := mkSt {
  next_hub : nat;
  next_span : nat;
  names : list (Hub * string);          (* transaction name per scope *)
  finished : list nat;                  (* spans finished, latest first *)
  reported : list (Hub * PanicValue);   (* events queued, latest first *)
  patterns : list (RouteCtx * string);  (* routing contexts filled in *)
  delivery : Z;
  now : Z
}.

Definition init : St :=
  {| next_hub := 1; next_span := 0; names := []; finished := [];
     reported := []; patterns := []; delivery := 3 * Second; now := 0 |}.

Fixpoint lookup (x : nat) (l : list (nat * string)) : string :=
  match l with
  | [] => ""
  | (y, s) :: l' => if Nat.eqb x y then s else lookup x l'
  end.

Definition clone (source : Hub) (s : St) : St * Hub :=
  ({| next_hub := S (next_hub s); next_span := next_span s;
      names := (next_hub s, lookup source (names s)) :: names s;
      finished := finished s; reported := reported s;
      patterns := patterns s; delivery := delivery s; now := now s |},
   next_hub s).

Definition start (ctx : Ctx) (name : string) (opts : list SpanOption) (s : St)
    : St * Span :=
  ({| next_hub := next_hub s; next_span := S (next_span s);
      names := names s; finished := finished s; reported := reported s;
      patterns := patterns s; delivery := delivery s; now := now s |},
   {| span_id := next_span s;
      span_ctx := {| ctx_hub := ctx_hub ctx; ctx_route := ctx_route ctx;
                     ctx_span := Some (next_span s) |} |}).

Definition finish (tx : Span) (s : St) : St :=
  {| next_hub := next_hub s; next_span := next_span s;
     names := names s; finished := span_id tx :: finished s;
     reported := reported s; patterns := patterns s;
     delivery := delivery s; now := now s |}.

Definition set_name (hub : Hub) (name : string) (s : St) : St :=
  {| next_hub := next_hub s; next_span := next_span s;
     names := (hub, name) :: names s; finished := finished s;
     reported := reported s; patterns := patterns s;
     delivery := delivery s; now := now s |}.

Definition report (hub : Hub) (ctx : Ctx) (r : Request) (err : PanicValue)
    (s : St) : St * option EventID :=
  ({| next_hub := next_hub s; next_span := next_span s;
      names := names s; finished := finished s;
      reported := (hub, err) :: reported s; patterns := patterns s;
      delivery := delivery s; now := now s |},
   Some "fc6d8c0c43fc4630ad850ee518f1b9d0").

Definition flush (hub : Hub) (t : Duration) (s : St) : St * bool :=
  ({| next_hub := next_hub s; next_span := next_span s;
      names := names s; finished := finished s;
      reported := reported s; patterns := patterns s;
      delivery := delivery s;
      now := now s + Z.min (Z.max 0 (delivery s)) (Z.max 0 t) |},
   (delivery s <=? t)%Z).

Definition collaborators : Collaborators :=
  {| State := St;
     CurrentHub := fun _ => 0;
     Clone := clone;
     StartTransaction := start;
     Finish := finish;
     SetRequest := fun _ _ s => s;
     SetTransaction := set_name;
     RecoverWithContext := report;
     Flush := flush;
     clock := now;
     RoutePattern := fun x s => lookup x (patterns s);
     RoutePattern_nil := Panicked nil_dereference |}.

(** A router: it matches the request against one pattern and records the
    match in the request's routing context. *)
Definition route (pattern : string) : HttpHandler collaborators :=
  Build_HttpHandler collaborators (fun w r (s : St) =>
       match ctx_route (req_ctx r) with
       | Some x =>
           ({| next_hub := next_hub s; next_span := next_span s;
               names := names s; finished := finished s;
               reported := reported s;
               patterns := (x, pattern) :: patterns s;
               delivery := delivery s; now := now s |}, Returned tt)
       | None => (s, Returned tt)
       end).

(** A handler that panics. *)
Definition boom : HttpHandler collaborators :=
  Build_HttpHandler collaborators
    (fun w r (s : St) => (s, Panicked (PString "boom"))).

(** GET /users/42 as chi hands it to a middleware: routing context 7, no hub. *)
Definition get_user : Request :=
  {| req_method := "GET"; url_path := "/users/42"; req_header := [];
     req_ctx := {| ctx_hub := None; ctx_route := Some 7; ctx_span := None |} |}.

(** The same request outside a chi router. *)
Definition get_user_unrouted : Request :=
  {| req_method := "GET"; url_path := "/users/42"; req_header := [];
     req_ctx := {| ctx_hub := None; ctx_route := None; ctx_span := None |} |}.

(** The same request with hub 5 already on its context. *)
Definition get_user_with_hub : Request :=
  {| req_method := "GET"; url_path := "/users/42"; req_header := [];
     req_ctx := {| ctx_hub := Some 5; ctx_route := Some 7; ctx_span := None |} |}.

(** The same collaborators with a router whose [RoutePattern] answers the
    empty pattern on a nil receiver. *)
Definition collaborators_nil_safe : Collaborators :=
  {| State := St;
     CurrentHub := fun _ => 0;
     Clone := clone;
     StartTransaction := start;
     Finish := finish;
     SetRequest := fun _ _ s => s;
     SetTransaction := set_name;
     RecoverWithContext := report;
     Flush := flush;
     clock := now;
     RoutePattern := fun x s => lookup x (patterns s);
     RoutePattern_nil := Returned "" |}.

(** A handler that returns at once, for [collaborators_nil_safe]. *)
Definition ok_nil_safe : HttpHandler collaborators_nil_safe :=
  Build_HttpHandler collaborators_nil_safe (fun w r (s : St) => (s, Returned tt)).

(** A [StartTransaction] that hands back a transaction made earlier, whose
    context carries no hub. *)
Definition start_detached (ctx : Ctx) (name : string) (opts : list SpanOption)
    (s : St) : St * Span :=
  (s, {| span_id := 0;
         span_ctx := {| ctx_hub := None; ctx_route := ctx_route ctx;
                        ctx_span := Some 0 |} |}).

Definition collaborators_detached : Collaborators :=
  {| State := St;
     CurrentHub := fun _ => 0;
     Clone := clone;
     StartTransaction := start_detached;
     Finish := finish;
     SetRequest := fun _ _ s => s;
     SetTransaction := set_name;
     RecoverWithContext := report;
     Flush := flush;
     clock := now;
     RoutePattern := fun x s => lookup x (patterns s);
     RoutePattern_nil := Panicked nil_dereference |}.

Definition ok_detached : HttpHandler collaborators_detached :=
  Build_HttpHandler collaborators_detached (fun w r (s : St) => (s, Returned tt)).

End Ref.

(** ** What one request looks like from outside

    The values the closure computes before it calls the wrapped handler, and
    what the wrapped handler then does: read off [handle_prologue]. *)
Section Observations.

Variable E : Collaborators.

Definition entry (r : Request) (s : State E) :=
  handle_prologue E r {| ext := s; trace := [] |}.

Definition entry_world (r : Request) (s : State E) : World E :=
  let '(wd, _, _, _, _) := entry r s in wd.

(** The hub of the request: [hub] in the source. *)
Definition request_hub (r : Request) (s : State E) : Hub :=
  let '(_, hub, _, _, _) := entry r s in hub.

(** The transaction started at request entry: [transaction] in the source. *)
Definition request_transaction (r : Request) (s : State E) : Span :=
  let '(_, _, transaction, _, _) := entry r s in transaction.

(** The request handed to the wrapped handler: [r] after [r.WithContext]. *)
Definition inner_request (r : Request) (s : State E) : Request :=
  let '(_, _, _, r', _) := entry r s in r'.

Definition entry_defers (r : Request) (s : State E) : list DeferredCall :=
  let '(_, _, _, _, defers) := entry r s in defers.

(** What the wrapped handler does when the closure calls it. *)
Definition inner_run (handler : HttpHandler E) (w : ResponseWriter)
    (r : Request) (s : State E) : State E * Outcome unit :=
  ServeHTTP E handler w (inner_request r s) (ext E (entry_world r s)).

Definition inner_outcome (handler : HttpHandler E) (w : ResponseWriter)
    (r : Request) (s : State E) : Outcome unit :=
  snd (inner_run handler w r s).

Definition inner_state (handler : HttpHandler E) (w : ResponseWriter)
    (r : Request) (s : State E) : State E :=
  fst (inner_run handler w r s).

(** The outcome of the closure's body, before its deferred calls run. *)
Definition body_outcome (handler : HttpHandler E) (w : ResponseWriter)
    (r : Request) (s : State E) : Outcome unit :=
  snd (handle_body E handler w r {| ext := s; trace := [] |}).

(** The state of the collaborators when the closure has returned. *)
Definition final_state (h : Handler) (handler : HttpHandler E)
    (w : ResponseWriter) (r : Request) (s : State E) : State E :=
  ext E (fst (handle_traced E h handler w r {| ext := s; trace := [] |})).

End Observations.

Arguments ServeHTTP {E} h w r s.
Arguments ext {E} w.
Arguments trace {E} w.

(** ** Proof automation: run the wrapper symbolically *)

Ltac unfold_wrapper :=
  unfold calls, result, final_state, body_outcome, inner_outcome, inner_state,
    inner_run, entry_defers, inner_request, request_transaction, request_hub,
    entry_world, entry, handle_traced, handle_body, handle_prologue,
    run_defers, run_deferred, recoverWithSentry, recover,
    call_Clone, call_StartTransaction, call_Finish, call_SetRequest,
    call_SetTransaction, call_ServeHTTP, call_RoutePattern,
    call_RecoverWithContext, call_Flush, emit,
    GetHubFromContext, RouteContext, panic_of, outcome_of in *.

Ltac break_step :=
  match goal with
  | H : (_, _) = (_, _) |- _ => inversion H; clear H; subst
  | H : Some _ = Some _ |- _ => inversion H; clear H; subst
  | H : Returned _ = Returned _ |- _ => inversion H; clear H; subst
  | H : Panicked _ = Panicked _ |- _ => inversion H; clear H; subst
  | H : Some _ = None |- _ => discriminate H
  | H : None = Some _ |- _ => discriminate H
  | H : Returned _ = Panicked _ |- _ => discriminate H
  | H : Panicked _ = Returned _ |- _ => discriminate H
  | H : true = false |- _ => discriminate H
  | H : false = true |- _ => discriminate H
  | |- context [match ?e with _ => _ end] => destruct e eqn:?; simpl in *
  | H : context [match ?e with _ => _ end] |- _ => destruct e eqn:?; simpl in *
  end.

Ltac run_wrapper := unfold_wrapper; simpl in *; repeat break_step; simpl in *.

Section Facts.

Variable E : Collaborators.
Variables (h : Handler) (handler : HttpHandler E) (w : ResponseWriter).
Variables (r : Request) (s : State E).

(** The prologue registers the two deferred calls, recovery on top. *)
Lemma entry_defers_eq :
  entry_defers E r s =
  [DRecoverWithSentry (request_hub E r s) (inner_request E r s);
   DFinish (request_transaction E r s)].
Proof. run_wrapper; reflexivity. Qed.

Lemma inner_request_eq :
  inner_request E r s = WithContext r (span_ctx (request_transaction E r s)).
Proof. run_wrapper; reflexivity. Qed.

End Facts.

(** ** The transaction is finished exactly once *)

(** C1.  In every request the wrapper starts one transaction, the one
    started at request entry, and calls [Finish] on it exactly once: whatever
    the wrapped handler does (return or panic) and whatever the configuration
    (so also when the recovery step panics again). *)
Theorem transaction_finished_exactly_once :
  forall (E : Collaborators) (h : Handler) (handler : HttpHandler E)
         (w : ResponseWriter) (r : Request) (s : State E),
    filter is_Finish (calls E h handler w r s)
      = [CFinish (request_transaction E r s)] /\
    exists ctx opts,
      filter is_StartTransaction (calls E h handler w r s)
        = [CStartTransaction ctx (url_path r) opts (request_transaction E r s)].
Proof.
  intros. run_wrapper; split; try reflexivity; eexists; eexists; reflexivity.
Qed.

(** ** Panics of the wrapped handler *)

(** C2.  When the wrapped handler panics with [v], the wrapper reports [v]
    and then, with [repanic], panics to its caller with the same [v];
    without [repanic] it returns normally. *)
Theorem repanic_propagates_same_value :
  forall (E : Collaborators) (h : Handler) (handler : HttpHandler E)
         (w : ResponseWriter) (r : Request) (s : State E) (v : PanicValue),
    inner_outcome E handler w r s = Panicked v ->
    (repanic h = true -> result E h handler w r s = Panicked v) /\
    (repanic h = false -> result E h handler w r s = Returned tt) /\
    exists hub ctx r' eventID,
      In (CRecoverWithContext hub ctx r' v eventID) (calls E h handler w r s).
Proof.
  intros E h handler w r s v H.
  run_wrapper; (split; [|split]); intros; try congruence;
    do 4 eexists; rewrite ?in_app_iff; simpl; eauto 10.
Qed.

(** C3.  When the wrapped handler panics with [v], the wrapper recovers the
    panic and reports it exactly once, on the request's hub, with the context
    of the request it handed to the handler and that request attached;
    whatever the configuration.  Whether the caller then sees a panic is
    [repanic], for every [v]. *)
Theorem panic_always_reported :
  forall (E : Collaborators) (h : Handler) (handler : HttpHandler E)
         (w : ResponseWriter) (r : Request) (s : State E) (v : PanicValue),
    inner_outcome E handler w r s = Panicked v ->
    (exists eventID,
       filter is_Recover (calls E h handler w r s)
       = [CRecoverWithContext (request_hub E r s)
            (req_ctx (inner_request E r s)) (inner_request E r s) v eventID]) /\
    is_panicked (result E h handler w r s) = repanic h.
Proof.
  intros E h handler w r s v H.
  run_wrapper; split; try reflexivity; eexists; reflexivity.
Qed.

(** ** Waiting for delivery *)

(** C4.  When the closure's body panicked, the recovery step reports the
    panic and then waits for delivery exactly when the report yielded an
    event identifier and [waitForDelivery] is set: one [Flush], on the
    request's hub, with the handler's timeout, after which the wrapper only
    finishes the transaction (it issues nothing that cancels a delivery).
    With a [Flush] that keeps to its timeout, the request waits no longer
    than the timeout.  Otherwise, and when the body did not panic, the
    wrapper never waits.  The timeout of a handler made from a zero
    [Timeout] is two seconds. *)
Theorem wait_for_delivery_bounded :
  forall (E : Collaborators) (h : Handler) (handler : HttpHandler E)
         (w : ResponseWriter) (r : Request) (s : State E),
    Flush_bounded E ->
    match body_outcome E handler w r s with
    | Panicked v =>
        exists eventID,
          filter is_Recover (calls E h handler w r s)
          = [CRecoverWithContext (request_hub E r s)
               (req_ctx (inner_request E r s)) (inner_request E r s) v eventID] /\
          match eventID, waitForDelivery h with
          | Some _, true =>
              exists before waited,
                calls E h handler w r s
                = before ++
                  [CRecoverWithContext (request_hub E r s)
                     (req_ctx (inner_request E r s)) (inner_request E r s)
                     v eventID;
                   CFlush (request_hub E r s) (timeout h) waited;
                   CFinish (request_transaction E r s)] /\
                filter is_Flush before = [] /\
                time_waited (calls E h handler w r s) = waited /\
                (0 <= waited <= Z.max 0 (timeout h))%Z
          | _, _ =>
              filter is_Flush (calls E h handler w r s) = [] /\
              time_waited (calls E h handler w r s) = 0%Z
          end
    | Returned _ =>
        filter is_Flush (calls E h handler w r s) = [] /\
        time_waited (calls E h handler w r s) = 0%Z
    end /\
    (forall options, Timeout options = 0%Z ->
       timeout (New options) = (2 * Second)%Z).
Proof.
  intros E h handler w r s HF. split.
  2:{ intros o Ho. unfold New. rewrite Ho. reflexivity. }
  run_wrapper; try (split; reflexivity).
  all: eexists; (split; [reflexivity|]); simpl; repeat break_step;
    try congruence; try (split; reflexivity).
  all: match goal with
       | HFl : Flush _ ?hub ?t ?s0 = (_, _) |- _ =>
           pose proof (HF hub t s0) as Hb; rewrite HFl in Hb; simpl in Hb
       end.
  all: match goal with
       | |- exists before waited, ?l = _ /\ _ =>
           exists (List.firstn (List.length l - 3) l); eexists; simpl;
           repeat split; try reflexivity; try lia
       end.
Qed.

(** ** The transaction's name *)


(** ** Deferred calls *)

(** C7.  The closure registers [Finish] first and the recovery step second,
    so the recovery step is on top of the stack of deferred calls.  When the
    body panics with [v], the recovery step runs first: the report of [v]
    comes before the one [Finish], with only the wait for delivery between
    them, and [Finish] is called also when the recovery step panics again,
    after which the caller sees the panic. *)
Theorem recovery_runs_before_finish :
  forall (E : Collaborators) (h : Handler) (handler : HttpHandler E)
         (w : ResponseWriter) (r : Request) (s : State E) (v : PanicValue),
    body_outcome E handler w r s = Panicked v ->
    entry_defers E r s
    = DRecoverWithSentry (request_hub E r s) (inner_request E r s)
        :: [DFinish (request_transaction E r s)] /\
    (exists before eventID waits,
       calls E h handler w r s
       = before ++
         [CRecoverWithContext (request_hub E r s)
            (req_ctx (inner_request E r s)) (inner_request E r s) v eventID]
         ++ waits ++ [CFinish (request_transaction E r s)] /\
       filter is_Finish before = [] /\
       filter is_Recover before = [] /\
       filter is_Flush waits = waits) /\
    (repanic h = true -> result E h handler w r s = Panicked v).
Proof.
  intros E h handler w r s v H. split; [apply entry_defers_eq|].
  run_wrapper; try congruence.
  all: split; [|intros; congruence || reflexivity].
  all: match goal with
       | |- exists before eventID waits, ?l = _ /\ _ =>
           match l with
           | context [CRecoverWithContext _ _ _ _ ?e] =>
           first
             [ exists (List.firstn (List.length l - 2) l), e, (@nil Call);
               simpl; repeat split; reflexivity
             | exists (List.firstn (List.length l - 3) l), e,
                 (List.firstn 1 (List.skipn (List.length l - 2) l));
               simpl; repeat split; reflexivity ]
           end
       end.
Qed.

(** ** Requests outside a chi router *)

(** C9, as amended.  In a request without a routing context, whose
    transaction's context derives from the request's (no routing context
    either) and carries a hub, once the wrapped handler has returned normally
    the closure calls [RoutePattern] on the nil routing context, once.  What
    follows is what the router does on a nil receiver.  If the call panics
    with [v], the body of the closure panics with [v] although the handler
    succeeded, no transaction name is set, the closure's own recovery step
    reports [v], and the caller sees the panic only when [repanic] is set.
    If the call returns a pattern [p], the transaction name is set to [p],
    nothing is reported and the closure returns. *)
Theorem unrouted_request_calls_RoutePattern_on_nil :
  forall (E : Collaborators) (h : Handler) (handler : HttpHandler E)
         (w : ResponseWriter) (r : Request) (s : State E) (hub' : Hub),
    ctx_route (req_ctx r) = None ->
    ctx_route (span_ctx (request_transaction E r s)) = ctx_route (req_ctx r) ->
    ctx_hub (span_ctx (request_transaction E r s)) = Some hub' ->
    inner_outcome E handler w r s = Returned tt ->
    RouteContext (req_ctx (inner_request E r s)) = None /\
    filter is_RoutePattern (calls E h handler w r s)
    = [CRoutePattern None (RoutePattern_nil E)] /\
    (exists after,
       calls E h handler w r s
       = trace (entry_world E r s) ++
         [CServeHTTP w (inner_request E r s) (Returned tt);
          CRoutePattern None (RoutePattern_nil E)] ++ after) /\
    match RoutePattern_nil E with
    | Panicked v =>
        body_outcome E handler w r s = Panicked v /\
        filter is_SetTransaction (calls E h handler w r s) = [] /\
        (exists eventID,
           filter is_Recover (calls E h handler w r s)
           = [CRecoverWithContext (request_hub E r s)
                (req_ctx (inner_request E r s)) (inner_request E r s)
                v eventID]) /\
        result E h handler w r s
        = (if repanic h then Panicked v else Returned tt)
    | Returned p =>
        body_outcome E handler w r s = Returned tt /\
        filter is_SetTransaction (calls E h handler w r s)
        = [CSetTransaction hub' p] /\
        filter is_Recover (calls E h handler w r s) = [] /\
        result E h handler w r s = Returned tt
    end.
Proof.
  intros E h handler w r s hub' Hr Hd Hh Ho.
  run_wrapper; try congruence.
  all: repeat match goal with u : unit |- _ => destruct u end.
  all: (split; [congruence|]);
    (split; [reflexivity|]);
    (split; [eexists; reflexivity|]);
    repeat split; try reflexivity; try congruence;
    try (eexists; reflexivity).
Qed.

(** ** The request's hub *)

(** C6.  When the inbound context carries no hub, the wrapper clones the
    process-wide hub once, the clone is the request's hub, and the context
    the transaction is started from is the inbound one with the clone set on
    it.  The only hubs the wrapper writes to are the clone and the hub of the
    transaction's context; so, the clone being a new hub and the
    transaction's context not carrying the process-wide hub, the wrapper
    never writes to the process-wide hub.  When the inbound context carries a
    hub, that hub is the request's hub, the transaction is started from the
    inbound context and nothing is cloned. *)
Theorem hub_cloned_once_when_absent :
  forall (E : Collaborators) (h : Handler) (handler : HttpHandler E)
         (w : ResponseWriter) (r : Request) (s : State E),
    (ctx_hub (req_ctx r) = None ->
     let clone := snd (Clone E (CurrentHub E s) s) in
     request_hub E r s = clone /\
     filter is_Clone (calls E h handler w r s)
     = [CClone (CurrentHub E s) clone] /\
     (exists opts,
        filter is_StartTransaction (calls E h handler w r s)
        = [CStartTransaction (SetHubOnContext (req_ctx r) clone) (url_path r)
             opts (request_transaction E r s)]) /\
     In (CSetRequest clone (inner_request E r s)) (calls E h handler w r s) /\
     (forall c hub,
        In c (calls E h handler w r s) -> written_hub c = Some hub ->
        hub = clone \/
        ctx_hub (span_ctx (request_transaction E r s)) = Some hub) /\
     (clone <> CurrentHub E s ->
      ctx_hub (span_ctx (request_transaction E r s)) <> Some (CurrentHub E s) ->
      forall c, In c (calls E h handler w r s) ->
                written_hub c <> Some (CurrentHub E s))) /\
    (forall hub,
       ctx_hub (req_ctx r) = Some hub ->
       request_hub E r s = hub /\
       filter is_Clone (calls E h handler w r s) = [] /\
       (exists opts,
          filter is_StartTransaction (calls E h handler w r s)
          = [CStartTransaction (req_ctx r) (url_path r) opts
               (request_transaction E r s)]) /\
       In (CSetRequest hub (inner_request E r s)) (calls E h handler w r s)).
Proof.
  intros E h handler w r s.
  assert (Hw : ctx_hub (req_ctx r) = None ->
               forall c hub,
                 In c (calls E h handler w r s) -> written_hub c = Some hub ->
                 hub = snd (Clone E (CurrentHub E s) s) \/
                 ctx_hub (span_ctx (request_transaction E r s)) = Some hub).
  { intros Hn c hub Hin Hc. run_wrapper; try congruence.
    all: repeat match goal with
                | H : _ \/ _ |- _ => destruct H
                | H : False |- _ => destruct H
                end; subst; simpl in *; try discriminate.
    all: match goal with
         | H : Some _ = Some _ |- _ => inversion H; subst; auto
         end. }
  split.
  - intros Hn clone. subst clone.
    split; [|split; [|split; [|split; [|split]]]].
    + run_wrapper; congruence.
    + run_wrapper; congruence.
    + run_wrapper; try congruence; eexists; reflexivity.
    + run_wrapper; try congruence; auto 10.
    + exact (Hw Hn).
    + intros Hfresh Hspan c Hin Hc.
      destruct (Hw Hn c _ Hin Hc) as [Heq | Heq]; congruence.
  - intros hub Hs.
    split; [|split; [|split]].
    + run_wrapper; congruence.
    + run_wrapper; congruence.
    + run_wrapper; try congruence; eexists; reflexivity.
    + run_wrapper; try congruence; auto 10.
Qed.

(** ** Construction and the two entry points *)

(** C8.  [New] keeps a non-zero [Timeout], replaces a zero one by two
    seconds, and copies [Repanic] and [WaitForDelivery].  A [Handler] is a
    value the wrappers close over: [New] is the only operation that yields
    one. *)
Theorem New_timeout_default :
  forall options : Options,
    (Timeout options <> 0%Z -> timeout (New options) = Timeout options) /\
    (Timeout options = 0%Z -> timeout (New options) = 2000000000%Z) /\
    repanic (New options) = Repanic options /\
    waitForDelivery (New options) = WaitForDelivery options.
Proof.
  intros [rp wt t]; unfold New; simpl.
  repeat split.
  - intros Hne. destruct (Z.eqb_spec t 0); [contradiction | reflexivity].
  - intros He. subst t. reflexivity.
Qed.

(** C10.  [HandleFunc] applied to a handler function and [Handle] applied
    to the handler that function implements serve every request alike: both
    are the closure of [handle] for the same handler. *)
Theorem Handle_HandleFunc_equivalent :
  forall (E : Collaborators) (h : Handler) (f : HandlerFunc E)
         (w : ResponseWriter) (r : Request) (s : State E),
    ServeHTTP (Handle E h (HandlerFunc_Handler E f)) w r s
      = HandleFunc E h f w r s /\
    HandleFunc E h f = handle E h (HandlerFunc_Handler E f) /\
    forall handler : HttpHandler E,
      ServeHTTP (Handle E h handler) w r s = handle E h handler w r s.
Proof.
  intros. repeat split; reflexivity.
Qed.

(** ** The theorems at concrete requests

    The reference collaborators deliver an event in three seconds; their
    [Flush] keeps to its timeout. *)

Lemma Ref_flush_bounded : Flush_bounded Ref.collaborators.
Proof. intros hub t s. simpl. lia. Qed.

(** Handler panics with "boom", [{repanic: true, waitForDelivery: true,
    timeout: 500ms}]: the caller sees "boom" again. *)
Lemma repanic_propagates_same_value_witness :
  inner_outcome Ref.collaborators Ref.boom 0 Ref.get_user Ref.init
    = Panicked (PString "boom") /\
  result Ref.collaborators (New (mkOptions true true half_second))
         Ref.boom 0 Ref.get_user Ref.init
    = Panicked (PString "boom").
Proof.
  split; [reflexivity|].
  apply (proj1 (repanic_propagates_same_value Ref.collaborators
                  (New (mkOptions true true half_second))
                  Ref.boom 0 Ref.get_user Ref.init (PString "boom") eq_refl)).
  reflexivity.
Defined.

(** Handler panics with "boom", [{repanic: false, waitForDelivery: false}]:
    one event reported, the caller sees a normal return. *)
Lemma panic_always_reported_witness :
  inner_outcome Ref.collaborators Ref.boom 0 Ref.get_user Ref.init
    = Panicked (PString "boom") /\
  is_panicked (result Ref.collaborators (New (mkOptions false false 0%Z))
                      Ref.boom 0 Ref.get_user Ref.init)
    = false.
Proof.
  split; [reflexivity|].
  exact (proj2 (panic_always_reported Ref.collaborators
                  (New (mkOptions false false 0%Z))
                  Ref.boom 0 Ref.get_user Ref.init (PString "boom") eq_refl)).
Defined.

(** With a 500ms timeout and a delivery of three seconds, the wrapper waits
    no longer than 500ms. *)
Lemma wait_for_delivery_bounded_witness :
  Flush_bounded Ref.collaborators /\
  (0 <= time_waited
          (calls Ref.collaborators (New (mkOptions true true half_second))
                 Ref.boom 0%nat Ref.get_user Ref.init)
     <= half_second)%Z.
Proof.
  split; [exact Ref_flush_bounded|].
  destruct (proj1 (wait_for_delivery_bounded Ref.collaborators
                     (New (mkOptions true true half_second))
                     Ref.boom 0 Ref.get_user Ref.init Ref_flush_bounded))
    as [eventID [Hrec Hwait]].
  vm_compute in Hrec. injection Hrec as <-.
  destruct Hwait as (before & waited & _ & _ & Hw & Hb).
  rewrite Hw. exact Hb.
Defined.


Lemma recovery_runs_before_finish_witness :
  body_outcome Ref.collaborators Ref.boom 0 Ref.get_user Ref.init
    = Panicked (PString "boom") /\
  result Ref.collaborators (New (mkOptions true false 0%Z))
         Ref.boom 0 Ref.get_user Ref.init
    = Panicked (PString "boom").
Proof.
  split; [reflexivity|].
  apply (proj2 (proj2 (recovery_runs_before_finish Ref.collaborators
                  (New (mkOptions true false 0%Z))
                  Ref.boom 0 Ref.get_user Ref.init (PString "boom") eq_refl))).
  reflexivity.
Defined.

(** The request outside a chi router, handled successfully, with a router
    whose [RoutePattern] dereferences its receiver: the body of the closure
    panics on the nil routing context. *)
Lemma unrouted_request_calls_RoutePattern_on_nil_witness :
  ctx_route (req_ctx Ref.get_user_unrouted) = None /\
  inner_outcome Ref.collaborators (Ref.route "/users/{id}") 0
                Ref.get_user_unrouted Ref.init = Returned tt /\
  filter is_RoutePattern
    (calls Ref.collaborators (New (mkOptions false false 0%Z))
           (Ref.route "/users/{id}") 0 Ref.get_user_unrouted Ref.init)
    = [CRoutePattern None (Panicked nil_dereference)] /\
  body_outcome Ref.collaborators (Ref.route "/users/{id}") 0
               Ref.get_user_unrouted Ref.init = Panicked nil_dereference.
Proof.
  split; [reflexivity|]. split; [reflexivity|].
  pose proof (unrouted_request_calls_RoutePattern_on_nil Ref.collaborators
                (New (mkOptions false false 0%Z)) (Ref.route "/users/{id}") 0
                Ref.get_user_unrouted Ref.init 1
                eq_refl eq_refl eq_refl eq_refl) as (_ & Hcall & _ & Hrest).
  split; [exact Hcall|]. exact (proj1 Hrest).
Defined.

(** The same request with a router whose [RoutePattern] answers the empty
    pattern on a nil receiver: the handler succeeds, the closure calls
    [RoutePattern] on nil, and nothing panics, inside the closure or out of
    it, even with [repanic] set.  And with the router that dereferences its
    receiver, a closure without [repanic] returns to its caller. *)
Lemma unrouted_request_need_not_panic :
  (ctx_route (req_ctx Ref.get_user_unrouted) = None /\
   inner_outcome Ref.collaborators_nil_safe Ref.ok_nil_safe 0
                 Ref.get_user_unrouted Ref.init = Returned tt /\
   In (CRoutePattern None (Returned ""))
      (calls Ref.collaborators_nil_safe (New (mkOptions true false 0%Z))
             Ref.ok_nil_safe 0 Ref.get_user_unrouted Ref.init) /\
   body_outcome Ref.collaborators_nil_safe Ref.ok_nil_safe 0
                Ref.get_user_unrouted Ref.init = Returned tt /\
   filter is_Recover
     (calls Ref.collaborators_nil_safe (New (mkOptions true false 0%Z))
            Ref.ok_nil_safe 0 Ref.get_user_unrouted Ref.init) = [] /\
   result Ref.collaborators_nil_safe (New (mkOptions true false 0%Z))
          Ref.ok_nil_safe 0 Ref.get_user_unrouted Ref.init = Returned tt) /\
  result Ref.collaborators (New (mkOptions false false 0%Z))
         (Ref.route "/users/{id}") 0 Ref.get_user_unrouted Ref.init
    = Returned tt.
Proof.
  repeat split; try reflexivity. vm_compute. auto 10.
Qed.

(** Without a hub on the inbound context, hub 0 is cloned once into hub 1 and
    never written to; with hub 5 on it, nothing is cloned. *)
Lemma hub_cloned_once_when_absent_witness :
  (ctx_hub (req_ctx Ref.get_user) = None /\
   filter is_Clone
     (calls Ref.collaborators (New (mkOptions false false 0%Z))
            Ref.boom 0 Ref.get_user Ref.init)
     = [CClone 0 1] /\
   forall c,
     In c (calls Ref.collaborators (New (mkOptions false false 0%Z))
                 Ref.boom 0 Ref.get_user Ref.init) ->
     written_hub c <> Some 0) /\
  (ctx_hub (req_ctx Ref.get_user_with_hub) = Some 5 /\
   filter is_Clone
     (calls Ref.collaborators (New (mkOptions false false 0%Z))
            Ref.boom 0 Ref.get_user_with_hub Ref.init)
     = []).
Proof.
  split.
  - split; [reflexivity|].
    destruct (proj1 (hub_cloned_once_when_absent Ref.collaborators
                       (New (mkOptions false false 0%Z))
                       Ref.boom 0 Ref.get_user Ref.init) eq_refl)
      as (_ & Hclone & _ & _ & _ & Hfree).
    split; [exact Hclone|].
    apply Hfree; simpl; discriminate.
  - split; [reflexivity|].
    exact (proj1 (proj2
      (proj2 (hub_cloned_once_when_absent Ref.collaborators
                (New (mkOptions false false 0%Z))
                Ref.boom 0 Ref.get_user_with_hub Ref.init) 5 eq_refl))).
Defined.

Lemma New_timeout_default_witness :
  timeout (New (mkOptions false true 0%Z)) = 2000000000%Z /\
  timeout (New (mkOptions false true half_second)) = half_second.
Proof.
  split.
  - exact (proj1 (proj2 (New_timeout_default (mkOptions false true 0%Z)))
                 eq_refl).
  - apply (proj1 (New_timeout_default (mkOptions false true half_second))).
    unfold half_second; simpl; lia.
Defined.

(** ** The scenarios of the specification, run *)

Example scenario_routed_request :
  calls Ref.collaborators (New (mkOptions false false 0%Z))
        (Ref.route "/users/{id}") 0 Ref.get_user Ref.init
  = let ctx := {| ctx_hub := Some 1; ctx_route := Some 7; ctx_span := None |} in
    let tx := {| span_id := 0;
                 span_ctx := {| ctx_hub := Some 1; ctx_route := Some 7;
                                ctx_span := Some 0 |} |} in
    let r' := WithContext Ref.get_user (span_ctx tx) in
    [CClone 0 1;
     CStartTransaction ctx "/users/42"
       [OpName "http.server"; ContinueFromRequest Ref.get_user;
        TransctionSource SourceURL] tx;
     CSetRequest 1 r';
     CServeHTTP 0 r' (Returned tt);
     CRoutePattern (Some 7) (Returned "/users/{id}");
     CSetTransaction 1 "/users/{id}";
     CFinish tx].
Proof. reflexivity. Qed.

Example scenario_panic_swallowed :
  result Ref.collaborators (New (mkOptions false false 0%Z))
         Ref.boom 0 Ref.get_user Ref.init = Returned tt /\
  Ref.reported (final_state Ref.collaborators (New (mkOptions false false 0%Z))
                            Ref.boom 0 Ref.get_user Ref.init)
  = [(1, PString "boom")] /\
  Ref.finished (final_state Ref.collaborators (New (mkOptions false false 0%Z))
                            Ref.boom 0 Ref.get_user Ref.init)
  = [0].
Proof. repeat split; reflexivity. Qed.

Example scenario_panic_waited_and_raised :
  result Ref.collaborators (New (mkOptions true true half_second))
         Ref.boom 0 Ref.get_user Ref.init = Panicked (PString "boom") /\
  Ref.now (final_state Ref.collaborators (New (mkOptions true true half_second))
                       Ref.boom 0 Ref.get_user Ref.init)
  = half_second /\
  Ref.finished (final_state Ref.collaborators
                            (New (mkOptions true true half_second))
                            Ref.boom 0 Ref.get_user Ref.init)
  = [0].
Proof. repeat split; reflexivity. Qed.

(** ** Further properties of the wrapper *)

(** X1.  The closure panics to its caller exactly when its body panicked and
    [repanic] is set, and then with the value the body panicked with. *)
Theorem result_panics_iff :
  forall (E : Collaborators) (h : Handler) (handler : HttpHandler E)
         (w : ResponseWriter) (r : Request) (s : State E) (v : PanicValue),
    result E h handler w r s = Panicked v <->
    body_outcome E handler w r s = Panicked v /\ repanic h = true.
Proof.
  intros. run_wrapper;
    (split; [intros H; try congruence; split; congruence
            |intros [H H']; congruence]).
Qed.

(** X2.  When the body of the closure returns, the recovery step does
    nothing: nothing is reported and nothing is waited for, the closure
    returns to its caller, and the only deferred effect is the [Finish] that
    ends the trace. *)
Theorem normal_return_no_recovery :
  forall (E : Collaborators) (h : Handler) (handler : HttpHandler E)
         (w : ResponseWriter) (r : Request) (s : State E),
    body_outcome E handler w r s = Returned tt ->
    filter is_Recover (calls E h handler w r s) = [] /\
    filter is_Flush (calls E h handler w r s) = [] /\
    result E h handler w r s = Returned tt /\
    calls E h handler w r s
    = trace (fst (fst (handle_body E handler w r {| ext := s; trace := [] |})))
      ++ [CFinish (request_transaction E r s)] /\
    final_state E h handler w r s
    = Finish E (request_transaction E r s)
        (ext (fst (fst (handle_body E handler w r {| ext := s; trace := [] |})))).
Proof.
  intros E h handler w r s H.
  run_wrapper; try congruence; repeat split; reflexivity.
Qed.

(** X3.  Every request starts its transaction under the raw URL path, with
    the operation name "http.server", the trace continued from the inbound
    request (the one the closure received, not the one it hands on) and the
    URL as the source of the name; the context it starts from carries the
    request's hub and the inbound routing context and span. *)
Theorem start_transaction_arguments :
  forall (E : Collaborators) (h : Handler) (handler : HttpHandler E)
         (w : ResponseWriter) (r : Request) (s : State E),
    exists ctx,
      filter is_StartTransaction (calls E h handler w r s)
      = [CStartTransaction ctx (url_path r) (span_options r)
           (request_transaction E r s)] /\
      ctx_hub ctx = Some (request_hub E r s) /\
      ctx_route ctx = ctx_route (req_ctx r) /\
      ctx_span ctx = ctx_span (req_ctx r).
Proof.
  intros. unfold span_options.
  run_wrapper; eexists; (split; [reflexivity|]); simpl; auto.
Qed.

(** X4.  The wrapped handler is called exactly once per request, with the
    response writer the closure received and a copy of the inbound request
    (same method, path and header) whose context is the transaction's; the
    request is set on the hub's scope exactly once, and before the handler
    runs. *)
Theorem handler_called_once :
  forall (E : Collaborators) (h : Handler) (handler : HttpHandler E)
         (w : ResponseWriter) (r : Request) (s : State E),
    let r' := inner_request E r s in
    filter is_ServeHTTP (calls E h handler w r s)
    = [CServeHTTP w r' (inner_outcome E handler w r s)] /\
    filter is_SetRequest (calls E h handler w r s)
    = [CSetRequest (request_hub E r s) r'] /\
    (exists before after,
       calls E h handler w r s
       = before ++ [CSetRequest (request_hub E r s) r';
                    CServeHTTP w r' (inner_outcome E handler w r s)] ++ after /\
       filter is_ServeHTTP before = []) /\
    req_method r' = req_method r /\ url_path r' = url_path r /\
    req_header r' = req_header r /\
    req_ctx r' = span_ctx (request_transaction E r s).
Proof.
  intros E h handler w r s r'. subst r'.
  run_wrapper; repeat split; try reflexivity.
  all: match goal with
       | |- exists before after, ?l = _ /\ _ =>
           match l with
           | CClone ?a ?b :: ?c :: _ :: _ :: ?rest =>
               exists [CClone a b; c], rest; split; reflexivity
           | ?c :: _ :: _ :: ?rest =>
               exists [c], rest; split; reflexivity
           end
       end.
Qed.

(** X5.  When the wrapped handler panics, the closure asks the router for no
    route pattern and sets no transaction name: the transaction keeps the
    raw URL path it was started under. *)
Theorem handler_panic_keeps_name :
  forall (E : Collaborators) (h : Handler) (handler : HttpHandler E)
         (w : ResponseWriter) (r : Request) (s : State E) (v : PanicValue),
    inner_outcome E handler w r s = Panicked v ->
    filter is_RoutePattern (calls E h handler w r s) = [] /\
    filter is_SetTransaction (calls E h handler w r s) = [] /\
    body_outcome E handler w r s = Panicked v /\
    exists ctx opts,
      filter is_StartTransaction (calls E h handler w r s)
      = [CStartTransaction ctx (url_path r) opts (request_transaction E r s)].
Proof.
  intros E h handler w r s v H.
  run_wrapper; try congruence; repeat split; try reflexivity;
    do 2 eexists; reflexivity.
Qed.

(** X6.  When the transaction's context carries no hub, the closure panics
    with a nil dereference once the handler has returned, before it asks the
    router for the route pattern; no transaction name is set, and the
    closure's own recovery step reports that panic on the request's hub. *)
Theorem detached_transaction_panics_before_lookup :
  forall (E : Collaborators) (h : Handler) (handler : HttpHandler E)
         (w : ResponseWriter) (r : Request) (s : State E),
    inner_outcome E handler w r s = Returned tt ->
    ctx_hub (span_ctx (request_transaction E r s)) = None ->
    body_outcome E handler w r s = Panicked nil_dereference /\
    filter is_RoutePattern (calls E h handler w r s) = [] /\
    filter is_SetTransaction (calls E h handler w r s) = [] /\
    (exists eventID,
       filter is_Recover (calls E h handler w r s)
       = [CRecoverWithContext (request_hub E r s)
            (req_ctx (inner_request E r s)) (inner_request E r s)
            nil_dereference eventID]) /\
    result E h handler w r s
    = (if repanic h then Panicked nil_dereference else Returned tt).
Proof.
  intros E h handler w r s Ho Hh.
  run_wrapper; try congruence; repeat split; try reflexivity;
    eexists; reflexivity.
Qed.

(** X7.  With a router whose [RoutePattern] answers [p] on a nil receiver, a
    request without routing context does not panic: after the handler has
    returned the closure sets the transaction name to [p], reports nothing
    and returns. *)
Theorem nil_safe_router_sets_its_answer :
  forall (E : Collaborators) (h : Handler) (handler : HttpHandler E)
         (w : ResponseWriter) (r : Request) (s : State E)
         (hub' : Hub) (p : string),
    inner_outcome E handler w r s = Returned tt ->
    ctx_route (req_ctx (inner_request E r s)) = None ->
    ctx_hub (span_ctx (request_transaction E r s)) = Some hub' ->
    RoutePattern_nil E = Returned p ->
    filter is_RoutePattern (calls E h handler w r s)
    = [CRoutePattern None (Returned p)] /\
    filter is_SetTransaction (calls E h handler w r s)
    = [CSetTransaction hub' p] /\
    filter is_Recover (calls E h handler w r s) = [] /\
    result E h handler w r s = Returned tt.
Proof.
  intros E h handler w r s hub' p Ho Hr Hh Hp.
  run_wrapper; try congruence.
  all: match goal with
       | H : RoutePattern_nil _ = Returned ?q |- _ =>
           assert (q = p) by congruence; subst q
       end.
  all: repeat split; reflexivity.
Qed.

(** Every wait the closure makes is on the request's hub, with the
    handler's timeout, and only under [waitForDelivery]. *)
Lemma flush_calls :
  forall (E : Collaborators) (h : Handler) (handler : HttpHandler E)
         (w : ResponseWriter) (r : Request) (s : State E)
         (hub : Hub) (t : Duration) (waited : Z),
    In (CFlush hub t waited) (calls E h handler w r s) ->
    t = timeout h /\ waitForDelivery h = true /\ hub = request_hub E r s.
Proof.
  intros E h handler w r s hub t waited Hin.
  run_wrapper.
  all: repeat match goal with
              | H : _ \/ _ |- _ => destruct H
              | H : False |- _ => destruct H
              end; try discriminate.
  all: match goal with
       | H : CFlush _ _ _ = CFlush _ _ _ |- _ => inversion H; subst
       end.
  all: repeat split; try reflexivity; try assumption; try congruence.
Qed.

Lemma New_timeout_nonzero :
  forall options : Options, timeout (New options) <> 0%Z.
Proof.
  intros [rp wt t]; unfold New; simpl.
  destruct (Z.eqb_spec t 0); [discriminate | assumption].
Qed.

(** X8.  A handler made by [New] never waits with a zero timeout: every
    [Flush] of every request it serves carries the timeout [New] chose, two
    seconds or the non-zero [Timeout] of the options, and is made only when
    the options ask to wait for delivery. *)
Theorem New_handler_never_waits_zero :
  forall (E : Collaborators) (options : Options) (handler : HttpHandler E)
         (w : ResponseWriter) (r : Request) (s : State E)
         (hub : Hub) (t : Duration) (waited : Z),
    In (CFlush hub t waited) (calls E (New options) handler w r s) ->
    t <> 0%Z /\
    t = (if (Timeout options =? 0)%Z then (2 * Second)%Z else Timeout options) /\
    WaitForDelivery options = true.
Proof.
  intros E options handler w r s hub t waited Hin.
  destruct (flush_calls E (New options) handler w r s hub t waited Hin)
    as (Ht & Hw & _).
  subst t. split; [apply New_timeout_nonzero|]. split; [reflexivity|exact Hw].
Qed.

(** X9.  Whatever the inbound context, the request, the report of a panic
    and the wait for delivery all go to the request's hub; only the
    transaction name is written elsewhere, to the hub of the transaction's
    context. *)
Theorem writes_go_to_request_hub :
  forall (E : Collaborators) (h : Handler) (handler : HttpHandler E)
         (w : ResponseWriter) (r : Request) (s : State E)
         (c : Call) (hub : Hub),
    In c (calls E h handler w r s) ->
    written_hub c = Some hub ->
    (is_SetTransaction c = false -> hub = request_hub E r s) /\
    (is_SetTransaction c = true ->
     ctx_hub (span_ctx (request_transaction E r s)) = Some hub).
Proof.
  intros E h handler w r s c hub Hin Hc.
  run_wrapper.
  all: repeat match goal with
              | H : _ \/ _ |- _ => destruct H
              | H : False |- _ => destruct H
              end; subst; simpl in *; try discriminate.
  all: split; intros; try discriminate; congruence.
Qed.

(** X10.  [Finish] is the last call of every request: the report of a panic
    and the wait for its delivery happen while the transaction is still
    open, and nothing follows its end. *)
Theorem finish_is_last_call :
  forall (E : Collaborators) (h : Handler) (handler : HttpHandler E)
         (w : ResponseWriter) (r : Request) (s : State E),
    (exists before,
       calls E h handler w r s
       = before ++ [CFinish (request_transaction E r s)] /\
       filter is_Finish before = []) /\
    exists s', final_state E h handler w r s
               = Finish E (request_transaction E r s) s'.
Proof.
  intros. run_wrapper.
  all: split; [|eexists; reflexivity].
  all: match goal with
       | |- exists before, ?l = _ /\ _ =>
           exists (List.removelast l); simpl; split; reflexivity
       end.
Qed.

(** X13.  When the wrapped handler panics, what it did to the state before
    is kept: the panic is reported in the state the handler left, the wait
    for delivery (if any) follows, and the transaction is finished last. *)
Theorem panic_final_state :
  forall (E : Collaborators) (h : Handler) (handler : HttpHandler E)
         (w : ResponseWriter) (r : Request) (s : State E) (v : PanicValue),
    inner_outcome E handler w r s = Panicked v ->
    let hub := request_hub E r s in
    let r' := inner_request E r s in
    let reported :=
      RecoverWithContext E hub (req_ctx r') r' v (inner_state E handler w r s) in
    final_state E h handler w r s
    = Finish E (request_transaction E r s)
        (match snd reported with
         | Some _ =>
             if waitForDelivery h
             then fst (Flush E hub (timeout h) (fst reported))
             else fst reported
         | None => fst reported
         end).
Proof.
  intros E h handler w r s v H hub r' reported.
  subst hub r' reported.
  run_wrapper; try congruence;
    repeat match goal with
           | H : ?a = (_, _) |- context [?a] => rewrite H; simpl
           end;
    reflexivity.
Qed.

(** *** Wrappers around wrappers *)

(** What a wrapper does as the wrapped handler of another one. *)
Lemma nested_inner_outcome :
  forall (E : Collaborators) (h1 : Handler) (handler : HttpHandler E)
         (w : ResponseWriter) (r : Request) (s : State E),
    inner_outcome E (Handle E h1 handler) w r s
    = result E h1 handler w (inner_request E r s) (ext (entry_world E r s)).
Proof.
  intros. unfold inner_outcome, inner_run, Handle, HandlerFunc_Handler,
    handle, result. simpl.
  destruct (handle_traced E h1 handler w (inner_request E r s)
              {| ext := ext (entry_world E r s); trace := [] |}).
  reflexivity.
Qed.

Lemma handler_panic_run :
  forall (E : Collaborators) (h : Handler) (handler : HttpHandler E)
         (w : ResponseWriter) (r : Request) (s : State E) (v : PanicValue),
    inner_outcome E handler w r s = Panicked v ->
    result E h handler w r s = (if repanic h then Panicked v else Returned tt) /\
    filter is_Recover (calls E h handler w r s)
    = [CRecoverWithContext (request_hub E r s)
         (req_ctx (inner_request E r s)) (inner_request E r s) v
         (snd (RecoverWithContext E (request_hub E r s)
                 (req_ctx (inner_request E r s)) (inner_request E r s) v
                 (inner_state E handler w r s)))].
Proof.
  intros E h handler w r s v H.
  run_wrapper; try congruence;
    repeat match goal with
           | H : ?a = (_, _) |- context [?a] => rewrite H; simpl
           end;
    split; reflexivity.
Qed.

(** X11.  Two wrappers stacked.  When the innermost handler panics with [v],
    the inner wrapper hands the outer one a panic with [v] if its [repanic]
    is set and a normal return otherwise.  With [repanic] on the inner
    wrapper the outer one reports [v] once more, on its own hub, and passes
    it on or not by its own [repanic]. *)
Theorem stacked_wrappers :
  forall (E : Collaborators) (h1 h : Handler) (handler : HttpHandler E)
         (w : ResponseWriter) (r : Request) (s : State E) (v : PanicValue),
    inner_outcome E handler w (inner_request E r s) (ext (entry_world E r s))
      = Panicked v ->
    inner_outcome E (Handle E h1 handler) w r s
      = (if repanic h1 then Panicked v else Returned tt) /\
    (repanic h1 = true ->
     result E h (Handle E h1 handler) w r s
       = (if repanic h then Panicked v else Returned tt) /\
     exists eventID,
       filter is_Recover (calls E h (Handle E h1 handler) w r s)
       = [CRecoverWithContext (request_hub E r s)
            (req_ctx (inner_request E r s)) (inner_request E r s) v eventID]).
Proof.
  intros E h1 h handler w r s v H.
  assert (Hin : inner_outcome E (Handle E h1 handler) w r s
                = (if repanic h1 then Panicked v else Returned tt)).
  { rewrite nested_inner_outcome.
    exact (proj1 (handler_panic_run E h1 handler w _ _ v H)). }
  split; [exact Hin|].
  intros Hr. rewrite Hr in Hin.
  destruct (handler_panic_run E h (Handle E h1 handler) w r s v Hin) as [Hres Hrec].
  split; [exact Hres|]. eexists. exact Hrec.
Qed.

(** The hub of the request is on the context of the transaction, with a
    Sentry whose transactions keep the hub of the context they start from. *)
Lemma keeps_hub_transaction :
  forall (E : Collaborators) (r : Request) (s : State E),
    StartTransaction_keeps_hub E ->
    ctx_hub (span_ctx (request_transaction E r s)) = Some (request_hub E r s).
Proof.
  intros E r s HK. run_wrapper.
  all: match goal with
       | H : StartTransaction _ ?c ?n ?o ?s0 = (_, _) |- _ =>
           pose proof (HK c n o s0) as K; rewrite H in K; simpl in K;
           rewrite K; simpl; congruence
       end.
Qed.

(** X12.  With a Sentry whose transactions keep the hub of the context they
    start from, the wrapped handler finds the request's hub on the context of
    the request it receives; a wrapper of this package used as the wrapped
    handler takes that hub and clones nothing; and every write of the
    closure, the transaction name included, goes to the request's hub. *)
Theorem handler_finds_request_hub :
  forall (E : Collaborators) (h : Handler) (handler : HttpHandler E)
         (w : ResponseWriter) (r : Request) (s : State E),
    StartTransaction_keeps_hub E ->
    GetHubFromContext (req_ctx (inner_request E r s))
      = Some (request_hub E r s) /\
    (forall (h1 : Handler) (handler1 : HttpHandler E) (s' : State E),
       request_hub E (inner_request E r s) s' = request_hub E r s /\
       filter is_Clone (calls E h1 handler1 w (inner_request E r s) s') = []) /\
    (forall c hub,
       In c (calls E h handler w r s) -> written_hub c = Some hub ->
       hub = request_hub E r s).
Proof.
  intros E h handler w r s HK.
  pose proof (keeps_hub_transaction E r s HK) as Htx.
  assert (Hctx : ctx_hub (req_ctx (inner_request E r s))
                 = Some (request_hub E r s)).
  { rewrite inner_request_eq. simpl. exact Htx. }
  split; [exact Hctx|]. split.
  - intros h1 handler1 s'.
    generalize dependent (inner_request E r s). intros r' Hctx'.
    generalize dependent (request_hub E r s). intros hub _ Hr'.
    clear HK. run_wrapper; try congruence; split; congruence.
  - intros c hub Hin Hc.
    clear HK Hctx.
    run_wrapper.
    all: repeat match goal with
                | H : _ \/ _ |- _ => destruct H
                | H : False |- _ => destruct H
                end; subst; simpl in *; try discriminate.
    all: congruence.
Qed.

(** *** The further properties at concrete requests *)

Lemma Ref_keeps_hub : StartTransaction_keeps_hub Ref.collaborators.
Proof. intros ctx name opts s. reflexivity. Qed.

Lemma normal_return_no_recovery_witness :
  body_outcome Ref.collaborators (Ref.route "/users/{id}") 0
               Ref.get_user Ref.init = Returned tt /\
  result Ref.collaborators (New (mkOptions true true 0%Z))
         (Ref.route "/users/{id}") 0 Ref.get_user Ref.init = Returned tt.
Proof.
  split; [reflexivity|].
  exact (proj1 (proj2 (proj2
    (normal_return_no_recovery Ref.collaborators
       (New (mkOptions true true 0%Z)) (Ref.route "/users/{id}") 0
       Ref.get_user Ref.init eq_refl)))).
Defined.

Lemma handler_panic_keeps_name_witness :
  inner_outcome Ref.collaborators Ref.boom 0 Ref.get_user Ref.init
    = Panicked (PString "boom") /\
  filter is_SetTransaction
    (calls Ref.collaborators (New (mkOptions false false 0%Z))
           Ref.boom 0 Ref.get_user Ref.init) = [].
Proof.
  split; [reflexivity|].
  exact (proj1 (proj2
    (handler_panic_keeps_name Ref.collaborators
       (New (mkOptions false false 0%Z)) Ref.boom 0
       Ref.get_user Ref.init (PString "boom") eq_refl))).
Defined.

(** A transaction handed back without a hub on its context: the closure
    panics after a handler that succeeded. *)
Lemma detached_transaction_panics_before_lookup_witness :
  inner_outcome Ref.collaborators_detached Ref.ok_detached 0
                Ref.get_user Ref.init = Returned tt /\
  ctx_hub (span_ctx (request_transaction Ref.collaborators_detached
                       Ref.get_user Ref.init)) = None /\
  result Ref.collaborators_detached (New (mkOptions true false 0%Z))
         Ref.ok_detached 0 Ref.get_user Ref.init
    = Panicked nil_dereference.
Proof.
  split; [reflexivity|]. split; [reflexivity|].
  exact (proj2 (proj2 (proj2 (proj2
    (detached_transaction_panics_before_lookup Ref.collaborators_detached
       (New (mkOptions true false 0%Z)) Ref.ok_detached 0
       Ref.get_user Ref.init eq_refl eq_refl))))).
Defined.

Lemma nil_safe_router_sets_its_answer_witness :
  inner_outcome Ref.collaborators_nil_safe Ref.ok_nil_safe 0
                Ref.get_user_unrouted Ref.init = Returned tt /\
  RoutePattern_nil Ref.collaborators_nil_safe = Returned "" /\
  filter is_SetTransaction
    (calls Ref.collaborators_nil_safe (New (mkOptions true false 0%Z))
           Ref.ok_nil_safe 0 Ref.get_user_unrouted Ref.init)
    = [CSetTransaction 1 ""].
Proof.
  split; [reflexivity|]. split; [reflexivity|].
  exact (proj1 (proj2
    (nil_safe_router_sets_its_answer Ref.collaborators_nil_safe
       (New (mkOptions true false 0%Z)) Ref.ok_nil_safe 0
       Ref.get_user_unrouted Ref.init 1 "" eq_refl eq_refl eq_refl eq_refl))).
Defined.

Lemma New_handler_never_waits_zero_witness :
  In (CFlush 1 (2 * Second)%Z (2 * Second)%Z)
     (calls Ref.collaborators (New (mkOptions false true 0%Z))
            Ref.boom 0 Ref.get_user Ref.init) /\
  (2 * Second)%Z <> 0%Z.
Proof.
  assert (Hin : In (CFlush 1 (2 * Second)%Z (2 * Second)%Z)
                   (calls Ref.collaborators (New (mkOptions false true 0%Z))
                          Ref.boom 0 Ref.get_user Ref.init)).
  { vm_compute. auto 10. }
  split; [exact Hin|].
  exact (proj1 (New_handler_never_waits_zero Ref.collaborators
                  (mkOptions false true 0%Z) Ref.boom 0 Ref.get_user Ref.init
                  1 (2 * Second)%Z (2 * Second)%Z Hin)).
Defined.

Lemma writes_go_to_request_hub_witness :
  In (CSetRequest 1 (inner_request Ref.collaborators Ref.get_user Ref.init))
     (calls Ref.collaborators (New (mkOptions false false 0%Z))
            Ref.boom 0 Ref.get_user Ref.init) /\
  1 = request_hub Ref.collaborators Ref.get_user Ref.init.
Proof.
  assert (Hin : In (CSetRequest 1 (inner_request Ref.collaborators
                                     Ref.get_user Ref.init))
                   (calls Ref.collaborators (New (mkOptions false false 0%Z))
                          Ref.boom 0 Ref.get_user Ref.init)).
  { vm_compute. auto 10. }
  split; [exact Hin|].
  exact (proj1 (writes_go_to_request_hub Ref.collaborators
                  (New (mkOptions false false 0%Z)) Ref.boom 0
                  Ref.get_user Ref.init _ 1 Hin eq_refl) eq_refl).
Defined.

Lemma panic_final_state_witness :
  inner_outcome Ref.collaborators Ref.boom 0 Ref.get_user Ref.init
    = Panicked (PString "boom") /\
  Ref.now (final_state Ref.collaborators (New (mkOptions false true half_second))
                       Ref.boom 0 Ref.get_user Ref.init) = half_second.
Proof.
  split; [reflexivity|].
  rewrite (panic_final_state Ref.collaborators
             (New (mkOptions false true half_second)) Ref.boom 0
             Ref.get_user Ref.init (PString "boom") eq_refl).
  reflexivity.
Defined.

(** Two wrappers around the panicking handler, the inner one with
    [repanic]: the outer one sees the panic. *)
Lemma stacked_wrappers_witness :
  inner_outcome Ref.collaborators Ref.boom 0
    (inner_request Ref.collaborators Ref.get_user Ref.init)
    (ext (entry_world Ref.collaborators Ref.get_user Ref.init))
    = Panicked (PString "boom") /\
  inner_outcome Ref.collaborators
    (Handle Ref.collaborators (New (mkOptions true false 0%Z)) Ref.boom)
    0 Ref.get_user Ref.init
    = Panicked (PString "boom").
Proof.
  split; [reflexivity|].
  exact (proj1 (stacked_wrappers Ref.collaborators
                  (New (mkOptions true false 0%Z))
                  (New (mkOptions false false 0%Z)) Ref.boom 0
                  Ref.get_user Ref.init (PString "boom") eq_refl)).
Defined.

Lemma handler_finds_request_hub_witness :
  StartTransaction_keeps_hub Ref.collaborators /\
  GetHubFromContext
    (req_ctx (inner_request Ref.collaborators Ref.get_user Ref.init))
    = Some 1.
Proof.
  split; [exact Ref_keeps_hub|].
  exact (proj1 (handler_finds_request_hub Ref.collaborators
                  (New (mkOptions false false 0%Z)) Ref.boom 0
                  Ref.get_user Ref.init Ref_keeps_hub)).
Defined.
